(** * Intersection of two 3D segments: a shallow embedding of [src/main.cpp]

    The program has two value classes, [Vector3D] and [Segment3D], and one
    free function, [intersect].  All of its arithmetic is on C++ [double].

    The embedding is written once, over an interface [Scalar] of the
    operations the source applies to a [double] ([+], [-], [*], [/], [<=],
    [==]), and is read at two instances:

    - [binary64]: IEEE 754 double precision, every operation rounded to
      nearest-even, with signed zeros, infinities and NaN.  This is the
      arithmetic the compiled program runs.  (Each operation is rounded on
      its own: no fused multiply-add contraction.)
    - [exact]: the rationals, where a quotient by zero does not exist.  This
      is the "exact arithmetic" reading of the same source text.

    A division is the only operation that may fail to have a value; the
    outcome [Undefined] records that, next to the two outcomes the C++
    function has itself: returning a value, or throwing. *)

From Stdlib Require Import ZArith QArith Qfield Bool String Lia Lqa.
From Stdlib Require Import Floats.

(** ** Exceptions and outcomes *)

(** [std::invalid_argument(what)] is the only exception the program throws. *)
Inductive exception : Type :=
| invalid_argument (what : string).

(** The two messages of the program. *)
Definition no_intersection : exception :=
  invalid_argument "Segments do not intersect".

Definition degenerate_segment : exception :=
  invalid_argument "Start and end points are the same".

Inductive outcome (A : Type) : Type :=
| Returns (a : A)
| Throws (e : exception)
| Undefined.

Arguments Returns {A} a.
Arguments Throws {A} e.
Arguments Undefined {A}.

Definition bind {A B : Type} (m : outcome A) (k : A -> outcome B) : outcome B :=
  match m with
  | Returns a => k a
  | Throws e => Throws e
  | Undefined => Undefined
  end.

(** A quotient is either a value or undefined. *)
Definition quotient {A : Type} (q : option A) : outcome A :=
  match q with
  | Some x => Returns x
  | None => Undefined
  end.

Declare Scope outcome_scope.
Delimit Scope outcome_scope with outcome.
Notation "x <- m ;; k" := (bind m (fun x => k))
  (at level 61, m at next level, right associativity) : outcome_scope.

(** ** The arithmetic interface *)

Class Scalar (F : Type) : Type := {
  sadd : F -> F -> F;
  ssub : F -> F -> F;
  smul : F -> F -> F;
  sdiv : F -> F -> option F;
  sleb : F -> F -> bool;
  seqb : F -> F -> bool
}.

Declare Scope scalar_scope.
Delimit Scope scalar_scope with scalar.
Notation "x + y" := (sadd x y) : scalar_scope.
Notation "x - y" := (ssub x y) : scalar_scope.
Notation "x * y" := (smul x y) : scalar_scope.
Notation "x / y" := (quotient (sdiv x y)) : scalar_scope.
Notation "x <=? y" := (sleb x y) : scalar_scope.
Notation "x =? y" := (seqb x y) : scalar_scope.

(** ** The two classes *)

(** [class Vector3D]: three [const double] members read through getters. *)
Record Vector3D (F : Type) : Type := {
  getX : F;
  getY : F;
  getZ : F
}.

(** [class Segment3D]: two [const Vector3D] members read through getters. *)
Record Segment3D (F : Type) : Type := {
  getStart : Vector3D F;
  getEnd : Vector3D F
}.

Arguments getX {F} _.
Arguments getY {F} _.
Arguments getZ {F} _.
Arguments getStart {F} _.
Arguments getEnd {F} _.

Section Program.
Context {F : Type} `{Scalar F}.
Local Open Scope string_scope.
Local Open Scope scalar_scope.
Local Open Scope outcome_scope.

(** [bool operator==(const Vector3D&) const = default;] compares the
    members in declaration order. *)
Definition Vector3D_eqb (u v : Vector3D F) : bool :=
  (getX u =? getX v) && (getY u =? getY v) && (getZ u =? getZ v).

(** The constructor of [Segment3D]. *)
Definition mkSegment3D (start end_ : Vector3D F) : outcome (Segment3D F) :=
  if Vector3D_eqb start end_
  then Throws (invalid_argument "Start and end points are the same")
  else Returns {| getStart := start; getEnd := end_ |}.

(** A valid segment is one the constructor returns. *)
Definition valid (seg : Segment3D F) : Prop :=
  mkSegment3D (getStart seg) (getEnd seg) = Returns seg.

(** [Vector3D intersect(segment1, segment2, precision)]. *)
Definition intersect (segment1 segment2 : Segment3D F) (precision : F)
  : outcome (Vector3D F) :=
  let a1 := getX (getEnd segment1) - getX (getStart segment1) in
  let b1 := getX (getStart segment1) in
  let c1 := getY (getEnd segment1) - getY (getStart segment1) in
  let d1 := getY (getStart segment1) in
  let e1 := getZ (getEnd segment1) - getZ (getStart segment1) in
  let f1 := getZ (getStart segment1) in

  let a2 := getX (getEnd segment2) - getX (getStart segment2) in
  let b2 := getX (getStart segment2) in
  let c2 := getY (getEnd segment2) - getY (getStart segment2) in
  let d2 := getY (getStart segment2) in
  let e2 := getZ (getEnd segment2) - getZ (getStart segment2) in
  let f2 := getZ (getStart segment2) in

  s <- (d2 * a1 - c1 * b2 + c1 * b1 - d1 * a1) / (c1 * a2 - c2 * a1) ;;
  t <- (a2 * s + b2 - b1) / a1 ;;

  if (a1 * t + b1 - precision <=? a2 * s + b2) && (a2 * s + b2 <=? a1 * t + b1 + precision) &&
     (c1 * t + d1 - precision <=? c2 * s + d2) && (c2 * s + d2 <=? c1 * t + d1 + precision) &&
     (e1 * t + f1 - precision <=? e2 * s + f2) && (e2 * s + f2 <=? e1 * t + f1 + precision)
  then Returns {| getX := a2 * s + b2; getY := c2 * s + d2; getZ := e2 * s + f2 |}
  else Throws (invalid_argument "Segments do not intersect").

(** *** The parts of [intersect], named

    The theorems speak of the coefficients, the solved parameters and the
    three axis checks; [intersect_parts] below ties these names to the
    function above. *)

(** The parametric line of a segment: per axis a direction and an offset,
    [(a, b)] for X, [(c, d)] for Y, [(e, f)] for Z. *)
Record Line : Type := {
  coef_a : F; coef_b : F;
  coef_c : F; coef_d : F;
  coef_e : F; coef_f : F
}.

Definition line_of (seg : Segment3D F) : Line := {|
  coef_a := getX (getEnd seg) - getX (getStart seg);
  coef_b := getX (getStart seg);
  coef_c := getY (getEnd seg) - getY (getStart seg);
  coef_d := getY (getStart seg);
  coef_e := getZ (getEnd seg) - getZ (getStart seg);
  coef_f := getZ (getStart seg)
|}.

(** Numerator and denominator of [s]. *)
Definition numerator (l1 l2 : Line) : F :=
  coef_d l2 * coef_a l1 - coef_c l1 * coef_b l2 + coef_c l1 * coef_b l1 - coef_d l1 * coef_a l1.

Definition denominator (l1 l2 : Line) : F :=
  coef_c l1 * coef_a l2 - coef_c l2 * coef_a l1.

(** Numerator of [t], once [s] is known; its divisor is [coef_a l1]. *)
Definition t_numerator (l1 l2 : Line) (s : F) : F :=
  coef_a l2 * s + coef_b l2 - coef_b l1.

(** The two divisions: [Some (s, t)] when both quotients exist. *)
Definition solve (l1 l2 : Line) : option (F * F) :=
  match sdiv (numerator l1 l2) (denominator l1 l2) with
  | None => None
  | Some s =>
      match sdiv (t_numerator l1 l2 s) (coef_a l1) with
      | None => None
      | Some t => Some (s, t)
      end
  end.

(** One axis of the test: [lhs - precision <= rhs && rhs <= lhs + precision]. *)
Definition axis_ok (precision lhs rhs : F) : bool :=
  (lhs - precision <=? rhs) && (rhs <=? lhs + precision).

Definition x_ok (l1 l2 : Line) (precision s t : F) : bool :=
  axis_ok precision (coef_a l1 * t + coef_b l1) (coef_a l2 * s + coef_b l2).
Definition y_ok (l1 l2 : Line) (precision s t : F) : bool :=
  axis_ok precision (coef_c l1 * t + coef_d l1) (coef_c l2 * s + coef_d l2).
Definition z_ok (l1 l2 : Line) (precision s t : F) : bool :=
  axis_ok precision (coef_e l1 * t + coef_f l1) (coef_e l2 * s + coef_f l2).

(** The second line evaluated at [s]. *)
Definition candidate (l2 : Line) (s : F) : Vector3D F := {|
  getX := coef_a l2 * s + coef_b l2;
  getY := coef_c l2 * s + coef_d l2;
  getZ := coef_e l2 * s + coef_f l2
|}.
End Program.

(** ** IEEE 754 binary64 *)

Definition double : Type := spec_float.

#[export] Instance binary64 : Scalar double := {|
  sadd := SFadd prec emax;
  ssub := SFsub prec emax;
  smul := SFmul prec emax;
  sdiv := fun x y => Some (SFdiv prec emax x y);
  sleb := SFleb;
  seqb := SFeqb
|}.

(** An integer literal, e.g. [3]: the nearest double. *)
Definition of_Z (z : Z) : double := binary_normalize prec emax z 0 false.

(** A decimal literal [m / 10^k] whose numerator and power of ten are both
    below [2^53]: both convert exactly, and the correctly rounded quotient is
    the double nearest to the decimal, which is what the compiler stores. *)
Definition decimal (m : Z) (k : nat) : double :=
  SFdiv prec emax (of_Z m) (of_Z (10 ^ Z.of_nat k)).

Definition NaN : double := S754_nan.

Definition is_nan (x : double) : bool :=
  match x with S754_nan => true | _ => false end.

Definition is_zero (x : double) : bool :=
  match x with S754_zero _ => true | _ => false end.

Definition is_infinite (x : double) : bool :=
  match x with S754_infinity _ => true | _ => false end.

Definition has_nan (p : Vector3D double) : bool :=
  is_nan (getX p) || is_nan (getY p) || is_nan (getZ p).

(** Two doubles that [==] cannot tell apart: the same non-NaN datum, or two
    zeros (of either sign). *)
Definition same_value (x y : double) : Prop :=
  match x, y with
  | S754_nan, _ | _, S754_nan => False
  | S754_zero _, S754_zero _ => True
  | _, _ => x = y
  end.

(** The rational a finite double stands for (0 for the others). *)
Definition to_Q (x : double) : Q :=
  match x with
  | S754_finite sg m e =>
      (if sg then -1 else 1) * inject_Z (Zpos m) * Qpower 2 e
  | _ => 0
  end.

(** [precision = 1e-6], the default argument of [intersect]. *)
Definition default_precision : double := decimal 1 6.

Definition vec (x y z : double) : Vector3D double :=
  {| getX := x; getY := y; getZ := z |}.

Definition seg (p q : Vector3D double) : Segment3D double :=
  {| getStart := p; getEnd := q |}.

(** ** Exact rational arithmetic *)

#[export] Instance exact : Scalar Q := {|
  sadd := Qplus;
  ssub := Qminus;
  smul := Qmult;
  sdiv := fun x y => if Qeq_bool y 0 then None else Some (Qdiv x y);
  sleb := Qle_bool;
  seqb := Qeq_bool
|}.

Definition vecQ (x y z : Q) : Vector3D Q :=
  {| getX := x; getY := y; getZ := z |}.

Definition segQ (p q : Vector3D Q) : Segment3D Q :=
  {| getStart := p; getEnd := q |}.

(** The point of a line at parameter [u], in exact arithmetic. *)
Definition point_at (l : @Line Q) (u : Q) : Vector3D Q :=
  vecQ (coef_a l * u + coef_b l) (coef_c l * u + coef_d l) (coef_e l * u + coef_f l).

(** The two quotients of [solve], as rationals. *)
Definition exact_s (l1 l2 : @Line Q) : Q :=
  numerator l1 l2 / denominator l1 l2.

Definition exact_t (l1 l2 : @Line Q) : Q :=
  t_numerator l1 l2 (exact_s l1 l2) / coef_a l1.

(** Two points with the same rational coordinates. *)
Definition same_point (p q : Vector3D Q) : Prop :=
  getX p == getX q /\ getY p == getY q /\ getZ p == getZ q.

(** The segment with the same end points, read as rationals. *)
Definition segment_to_Q (s : Segment3D double) : Segment3D Q :=
  segQ (vecQ (to_Q (getX (getStart s))) (to_Q (getY (getStart s))) (to_Q (getZ (getStart s))))
       (vecQ (to_Q (getX (getEnd s))) (to_Q (getY (getEnd s))) (to_Q (getZ (getEnd s)))).

(** The segments themselves meet: some parameters in [0, 1] give one point. *)
Definition segments_meet (s1 s2 : Segment3D Q) : Prop :=
  exists u v : Q,
    0 <= u /\ u <= 1 /\ 0 <= v /\ v <= 1 /\
    same_point (point_at (line_of s1) u) (point_at (line_of s2) v).

(** ** Literals and test data *)

Definition ivec (x y z : Z) : Vector3D double :=
  vec (of_Z x) (of_Z y) (of_Z z).

Definition ivecQ (x y z : Z) : Vector3D Q :=
  vecQ (inject_Z x) (inject_Z y) (inject_Z z).

(** [int main()]: the value it prints, or the exception that escapes. *)
Module Main.
Local Open Scope outcome_scope.

Definition x1 : Vector3D double := vec (of_Z 3) (of_Z 0) (decimal 1 7).
Definition x2 : Vector3D double := ivec 1 0 0.
Definition x3 : Vector3D double := ivec 0 1 0.
Definition x4 : Vector3D double := ivec 0 4 0.

Definition run : outcome (Vector3D double) :=
  s1 <- mkSegment3D x1 x2 ;;
  s2 <- mkSegment3D x3 x4 ;;
  intersect s1 s2 default_precision.
End Main.

(** A point with a NaN coordinate, e.g. [Vector3D(std::nan(""), 0, 0)]. *)
Definition nan_point : Vector3D double := vec NaN (of_Z 0) (of_Z 0).

(** [Point3(1,2,3)] and [Point3(1,2,3.0000001)]. *)
Definition p123 : Vector3D double := ivec 1 2 3.
Definition p123' : Vector3D double := vec (of_Z 1) (of_Z 2) (decimal 30000001 7).

(** The diagonals of the square [0,2] x [0,2] in the plane z = 0. *)
Definition diag1 : Segment3D double := seg (ivec 0 0 0) (ivec 2 2 0).
Definition diag2 : Segment3D double := seg (ivec 0 2 0) (ivec 2 0 0).
Definition diag1Q : Segment3D Q := segQ (ivecQ 0 0 0) (ivecQ 2 2 0).
Definition diag2Q : Segment3D Q := segQ (ivecQ 0 2 0) (ivecQ 2 0 0).

(** Two parallel segments, a unit apart along Y. *)
Definition par1 : Segment3D double := seg (ivec 0 0 0) (ivec 1 1 1).
Definition par2 : Segment3D double := seg (ivec 0 1 0) (ivec 1 2 1).

(** Two overlapping segments of one line. *)
Definition col1 : Segment3D double := seg (ivec 0 0 0) (ivec 2 2 2).
Definition col2 : Segment3D double := seg (ivec 1 1 1) (ivec 3 3 3).

(** Two short segments whose supporting lines cross at (2,2,0), beyond the
    end of each. *)
Definition short1 : Segment3D double := seg (ivec 0 0 0) (ivec 1 1 0).
Definition short2 : Segment3D double := seg (ivec 4 0 0) (ivec 3 1 0).

(** A segment parallel to the Y axis, crossed at (0,1,0) by one parallel to
    the X axis. *)
Definition upright : Segment3D double := seg (ivec 0 0 0) (ivec 0 2 0).
Definition across : Segment3D double := seg (ivec (-1) 1 0) (ivec 1 1 0).
Definition uprightQ : Segment3D Q := segQ (ivecQ 0 0 0) (ivecQ 0 2 0).
Definition acrossQ : Segment3D Q := segQ (ivecQ (-1) 1 0) (ivecQ 1 1 0).

(** A segment of slope 1 from the origin to (49,49,0), crossed at (1,1,0)
    by the unit segment standing on (1,0,0). *)
Definition slant : Segment3D double := seg (ivec 0 0 0) (ivec 49 49 0).
Definition post : Segment3D double := seg (ivec 1 0 0) (ivec 1 1 0).

(** The first point of [main] with [1e-5] in place of [1e-7]. *)
Definition x1_higher : Vector3D double := vec (of_Z 3) (of_Z 0) (decimal 1 5).


(** Some coordinate of some end point of the segment is NaN. *)
Definition segment_has_nan (s : Segment3D double) : bool :=
  has_nan (getStart s) || has_nan (getEnd s).

(** ** The embedding and its named parts *)

(** A closed conjunction of equations, each settled by evaluation. *)
Ltac by_evaluation :=
  repeat match goal with |- _ /\ _ => split end;
  vm_compute; reflexivity.

Lemma intersect_parts {F : Type} `{Scalar F}
    (segment1 segment2 : Segment3D F) (precision : F) :
  intersect segment1 segment2 precision =
  match solve (line_of segment1) (line_of segment2) with
  | None => Undefined
  | Some (s, t) =>
      if x_ok (line_of segment1) (line_of segment2) precision s t
         && y_ok (line_of segment1) (line_of segment2) precision s t
         && z_ok (line_of segment1) (line_of segment2) precision s t
      then Returns (candidate (line_of segment2) s)
      else Throws no_intersection
  end.
Proof.
  unfold intersect, solve, numerator, denominator, t_numerator; simpl.
  destruct (sdiv _ _) as [s|]; simpl; [|reflexivity].
  destruct (sdiv _ _) as [t|]; simpl; [|reflexivity].
  unfold x_ok, y_ok, z_ok, axis_ok, candidate, no_intersection; simpl.
  rewrite !andb_assoc. reflexivity.
Qed.

(** In binary64 both quotients always exist. *)
Lemma solve_binary64 (l1 l2 : @Line double) :
  solve l1 l2 =
  let s := SFdiv prec emax (numerator l1 l2) (denominator l1 l2) in
  Some (s, SFdiv prec emax (t_numerator l1 l2 s) (coef_a l1)).
Proof. reflexivity. Qed.

(** The literals are the doubles a C++ compiler stores for them. *)
Lemma literal_1e_7 : Prim2SF 0x1.ad7f29abcaf48p-24%float = decimal 1 7.
Proof. vm_compute. reflexivity. Qed.

Lemma literal_1e_6 : Prim2SF 0x1.0c6f7a0b5ed8dp-20%float = default_precision.
Proof. vm_compute. reflexivity. Qed.

Lemma literal_3_0000001 : Prim2SF 0x1.800000d6bf94dp+1%float = decimal 30000001 7.
Proof. vm_compute. reflexivity. Qed.

(** ** Comparison of doubles *)

Lemma SFcompare_refl (x : double) :
  SFcompare x x = if is_nan x then None else Some Eq.
Proof.
  destruct x as [s|s| |s m e]; simpl; try reflexivity.
  - destruct s; reflexivity.
  - rewrite Z.compare_refl, Pos.compare_cont_refl.
    destruct s; reflexivity.
Qed.

Lemma SFeqb_refl (x : double) : SFeqb x x = negb (is_nan x).
Proof.
  unfold SFeqb. rewrite SFcompare_refl. destruct x; reflexivity.
Qed.

Lemma SFeqb_same_value (x y : double) : SFeqb x y = true <-> same_value x y.
Proof.
  unfold SFeqb.
  destruct x as [s1|s1| |s1 m1 e1], y as [s2|s2| |s2 m2 e2]; simpl;
    try (split; [discriminate|contradiction]);
    try tauto.
  1-7: destruct s1, s2; simpl; split; intros Heq; try discriminate; reflexivity.
  rewrite Pos.compare_cont_spec.
  destruct s1, s2; try (split; discriminate);
    destruct (Z.compare_spec e1 e2) as [He|He|He];
    try (split; [discriminate | intros [= He' Hm']; lia]);
    subst e2; destruct (Pos.compare_spec m1 m2) as [Hm|Hm|Hm];
    try (split; [discriminate | intros [= Hm']; lia]);
    subst m2; split; reflexivity.
Qed.

Lemma same_value_sym (x y : double) : same_value x y -> same_value y x.
Proof.
  destruct x, y; simpl; intros Hxy; try tauto; try discriminate;
    symmetry; exact Hxy.
Qed.

Lemma SFeqb_sym (x y : double) : SFeqb x y = SFeqb y x.
Proof.
  destruct (SFeqb x y) eqn:Hxy, (SFeqb y x) eqn:Hyx; try reflexivity.
  - apply SFeqb_same_value, same_value_sym, SFeqb_same_value in Hxy. congruence.
  - apply SFeqb_same_value, same_value_sym, SFeqb_same_value in Hyx. congruence.
Qed.

Lemma SFleb_nan_r (x : double) : SFleb x NaN = false.
Proof. destruct x; reflexivity. Qed.

Lemma SFleb_nan_l (x : double) : SFleb NaN x = false.
Proof. reflexivity. Qed.

(** ** [Vector3D::operator==] *)

Lemma Vector3D_eqb_sym (p q : Vector3D double) :
  Vector3D_eqb p q = Vector3D_eqb q p.
Proof.
  unfold Vector3D_eqb; simpl.
  rewrite (SFeqb_sym (getX p)), (SFeqb_sym (getY p)), (SFeqb_sym (getZ p)).
  reflexivity.
Qed.

Lemma Vector3D_eqb_diag (p : Vector3D double) :
  Vector3D_eqb p p = negb (has_nan p).
Proof.
  unfold Vector3D_eqb, has_nan; simpl.
  rewrite !SFeqb_refl, !negb_orb. reflexivity.
Qed.

(** C5, refuted as stated: equality on points is not reflexive.  A point
    with a NaN coordinate is not equal to itself. *)
Lemma Vector3D_eqb_irreflexive_at_nan :
  Vector3D_eqb nan_point nan_point = false.
Proof. reflexivity. Qed.

(** C5, amended: [==] on points is symmetric; a point equals itself exactly
    when none of its coordinates is NaN; two points are equal iff on each
    axis the coordinates are the same non-NaN double or are both zeros, with
    no tolerance; [(1,2,3) == (1,2,3)] is true and
    [(1,2,3) == (1,2,3.0000001)] is false. *)
Theorem Vector3D_eqb_exact :
  (forall p q : Vector3D double, Vector3D_eqb p q = Vector3D_eqb q p) /\
  (forall p : Vector3D double, Vector3D_eqb p p = negb (has_nan p)) /\
  (forall p q : Vector3D double,
      Vector3D_eqb p q = true <->
      same_value (getX p) (getX q) /\
      same_value (getY p) (getY q) /\
      same_value (getZ p) (getZ q)) /\
  Vector3D_eqb p123 p123 = true /\
  Vector3D_eqb p123 p123' = false.
Proof.
  split; [exact Vector3D_eqb_sym|].
  split; [exact Vector3D_eqb_diag|].
  split; [|split; reflexivity].
  intros p q. unfold Vector3D_eqb; simpl.
  rewrite !andb_true_iff, !SFeqb_same_value. tauto.
Qed.

(** ** The constructor of [Segment3D] *)

(** C4, refuted as stated: with no restriction on the coordinates, a point
    with a NaN coordinate builds a segment from itself to itself. *)
Lemma mkSegment3D_nan_point_returns :
  mkSegment3D nan_point nan_point = Returns (seg nan_point nan_point).
Proof. reflexivity. Qed.

(** C4, amended: for every point [p] none of whose coordinates is NaN,
    constructing the segment from [p] to [p] throws
    [std::invalid_argument("Start and end points are the same")]. *)
Theorem mkSegment3D_same_point_throws (p : Vector3D double) :
  has_nan p = false ->
  mkSegment3D p p = Throws degenerate_segment.
Proof.
  intros Hp. unfold mkSegment3D.
  rewrite Vector3D_eqb_diag, Hp. reflexivity.
Qed.

Lemma mkSegment3D_same_point_throws_witness :
  has_nan p123 = false /\ mkSegment3D p123 p123 = Throws degenerate_segment.
Proof.
  split; [reflexivity | apply (mkSegment3D_same_point_throws p123); reflexivity].
Defined.

(** A segment is valid exactly when [==] tells its end points apart. *)
Lemma valid_iff {F : Type} `{Scalar F} (s : Segment3D F) :
  valid s <-> Vector3D_eqb (getStart s) (getEnd s) = false.
Proof.
  unfold valid, mkSegment3D. destruct s as [p q]; simpl.
  destruct (Vector3D_eqb p q); split; intros Hs;
    try discriminate; reflexivity.
Qed.

(** ** The demonstration in [main] *)

(** C2, refuted as stated: on the two segments of [main], at the default
    precision, [intersect] does not throw. *)
Lemma intersect_main_does_not_throw :
  ~ exists e : exception,
      intersect (seg Main.x1 Main.x2) (seg Main.x3 Main.x4) default_precision
      = Throws e.
Proof. intros [e He]. vm_compute in He. discriminate He. Qed.

(** C2, amended: both segments of [main] are valid, and [intersect] on them
    at the default precision [1e-6] returns the point (0, 0, 0): the solved
    parameters are [t = 1.5] and [s], the double nearest to [-1/3], and the
    three axis checks pass (along Z the two lines are [5e-8] apart, within
    the precision).  So [main] prints that point and no exception escapes. *)
Theorem intersect_main_returns_origin :
  mkSegment3D Main.x1 Main.x2 = Returns (seg Main.x1 Main.x2) /\
  mkSegment3D Main.x3 Main.x4 = Returns (seg Main.x3 Main.x4) /\
  solve (line_of (seg Main.x1 Main.x2)) (line_of (seg Main.x3 Main.x4))
    = Some (SFdiv prec emax (of_Z (-1)) (of_Z 3), decimal 15 1) /\
  intersect (seg Main.x1 Main.x2) (seg Main.x3 Main.x4) default_precision
    = Returns (ivec 0 0 0) /\
  Main.run = Returns (ivec 0 0 0).
Proof. by_evaluation. Qed.

(** With the first point raised to z = [1e-5] the lines are [5e-6] apart
    along Z at the solved parameters, beyond the precision, and the same
    call throws. *)
Lemma intersect_main_throws_at_higher_offset :
  intersect (seg x1_higher Main.x2) (seg Main.x3 Main.x4) default_precision
    = Throws no_intersection.
Proof. vm_compute. reflexivity. Qed.

(** ** The outcomes of [intersect] *)

(** C3: in binary64, for all segments and every precision, both quotients
    exist, and [intersect] either returns the second line evaluated at the
    solved [s], when the three axis checks pass, or throws
    [std::invalid_argument("Segments do not intersect")], when one of them
    fails; there is no third outcome. *)
Theorem intersect_returns_candidate_or_throws
    (segment1 segment2 : Segment3D double) (precision : double) :
  exists s t : double,
    solve (line_of segment1) (line_of segment2) = Some (s, t) /\
    ((x_ok (line_of segment1) (line_of segment2) precision s t = true /\
      y_ok (line_of segment1) (line_of segment2) precision s t = true /\
      z_ok (line_of segment1) (line_of segment2) precision s t = true /\
      intersect segment1 segment2 precision =
        Returns {| getX := SFadd prec emax (SFmul prec emax (coef_a (line_of segment2)) s)
                                 (coef_b (line_of segment2));
                   getY := SFadd prec emax (SFmul prec emax (coef_c (line_of segment2)) s)
                                 (coef_d (line_of segment2));
                   getZ := SFadd prec emax (SFmul prec emax (coef_e (line_of segment2)) s)
                                 (coef_f (line_of segment2)) |})
     \/
     ((x_ok (line_of segment1) (line_of segment2) precision s t = false \/
       y_ok (line_of segment1) (line_of segment2) precision s t = false \/
       z_ok (line_of segment1) (line_of segment2) precision s t = false) /\
      intersect segment1 segment2 precision =
        Throws (invalid_argument "Segments do not intersect"))).
Proof.
  rewrite intersect_parts, solve_binary64. cbv zeta.
  eexists; eexists; split; [reflexivity|].
  destruct (x_ok _ _ _ _ _); [|right; split; [left|]; reflexivity].
  destruct (y_ok _ _ _ _ _); [|right; split; [right; left|]; reflexivity].
  destruct (z_ok _ _ _ _ _); [|right; split; [right; right|]; reflexivity].
  left. repeat split; reflexivity.
Qed.

(** ** Exact arithmetic: the solved parameters *)

(** Division over the rationals has a value exactly when the divisor is
    not zero. *)
Lemma exact_sdiv_some (x y : Q) : ~ y == 0 -> sdiv x y = Some (x / y).
Proof.
  intros Hy. simpl. destruct (Qeq_bool y 0) eqn:Hb; [|reflexivity].
  apply Qeq_bool_iff in Hb. contradiction.
Qed.

Lemma exact_sdiv_none (x y : Q) : sdiv x y = None <-> y == 0.
Proof.
  simpl. destruct (Qeq_bool y 0) eqn:Hb.
  - apply Qeq_bool_iff in Hb. tauto.
  - split; [discriminate|]. intros Hy.
    apply Qeq_bool_iff in Hy. congruence.
Qed.

Section Exact.

Variables l1 l2 : @Line Q.

(** Both quotients exist exactly when neither divisor is zero. *)
Lemma exact_solve_none :
  solve l1 l2 = None <-> denominator l1 l2 == 0 \/ coef_a l1 == 0.
Proof.
  unfold solve.
  destruct (sdiv (numerator l1 l2) (denominator l1 l2)) as [s|] eqn:Hs.
  - destruct (sdiv (t_numerator l1 l2 s) (coef_a l1)) as [t|] eqn:Ht.
    + split; [discriminate|]. intros [Hd|Ha].
      * apply (exact_sdiv_none (numerator l1 l2)) in Hd. congruence.
      * apply (exact_sdiv_none (t_numerator l1 l2 s)) in Ha. congruence.
    + split; [|reflexivity]. intros _. right.
      apply (exact_sdiv_none (t_numerator l1 l2 s)). exact Ht.
  - split; [|reflexivity]. intros _. left.
    apply (exact_sdiv_none (numerator l1 l2)). exact Hs.
Qed.

Hypothesis Ha : ~ coef_a l1 == 0.
Hypothesis Hd : ~ denominator l1 l2 == 0.

Lemma exact_solve : solve l1 l2 = Some (exact_s l1 l2, exact_t l1 l2).
Proof.
  unfold solve, exact_t, exact_s.
  rewrite (exact_sdiv_some _ _ Hd), (exact_sdiv_some _ _ Ha). reflexivity.
Qed.

(** The X equation holds by the definition of [t]. *)
Lemma exact_x_equation :
  coef_a l1 * exact_t l1 l2 + coef_b l1 == coef_a l2 * exact_s l1 l2 + coef_b l2.
Proof.
  unfold exact_t, t_numerator; simpl. field. exact Ha.
Qed.

(** The Y equation holds by the definition of [s]. *)
Lemma exact_y_equation :
  coef_c l1 * exact_t l1 l2 + coef_d l1 == coef_c l2 * exact_s l1 l2 + coef_d l2.
Proof.
  unfold exact_t, exact_s, t_numerator, numerator; simpl.
  unfold denominator in Hd; simpl in Hd.
  unfold denominator; simpl.
  field. split; assumption.
Qed.
End Exact.

(** The axis check over the rationals. *)

Lemma exact_axis_ok_iff (precision lhs rhs : Q) :
  axis_ok precision lhs rhs = true <->
  lhs - precision <= rhs /\ rhs <= lhs + precision.
Proof.
  unfold axis_ok; simpl.
  rewrite andb_true_iff, !Qle_bool_iff. tauto.
Qed.

Lemma exact_axis_ok_equal (precision lhs rhs : Q) :
  0 <= precision -> lhs == rhs -> axis_ok precision lhs rhs = true.
Proof.
  intros Hp Heq. apply exact_axis_ok_iff. lra.
Qed.


Lemma exact_x_ok (l1 l2 : @Line Q) (precision : Q) :
  ~ (coef_a l1 == 0)%Q -> (0 <= precision)%Q ->
  x_ok l1 l2 precision (exact_s l1 l2) (exact_t l1 l2) = true.
Proof.
  intros Ha Hp. unfold x_ok.
  apply exact_axis_ok_equal; [exact Hp | exact (exact_x_equation l1 l2 Ha)].
Qed.

Lemma exact_y_ok (l1 l2 : @Line Q) (precision : Q) :
  ~ (coef_a l1 == 0)%Q -> ~ (denominator l1 l2 == 0)%Q -> (0 <= precision)%Q ->
  y_ok l1 l2 precision (exact_s l1 l2) (exact_t l1 l2) = true.
Proof.
  intros Ha Hd Hp. unfold y_ok.
  apply exact_axis_ok_equal; [exact Hp | exact (exact_y_equation l1 l2 Ha Hd)].
Qed.


(** C1: in exact arithmetic, when [a1] and [c1*a2 - c2*a1] are not zero,
    the solved [s] and [t] are the two quotients of the source, they satisfy
    [a1*t + b1 = a2*s + b2] and [c1*t + d1 = c2*s + d2], and for every
    precision [>= 0] the X and Y checks pass, so that the Z check alone
    decides between returning the candidate and throwing. *)
Theorem exact_xy_checks_pass (segment1 segment2 : Segment3D Q) (precision : Q) :
  ~ coef_a (line_of segment1) == 0 ->
  ~ denominator (line_of segment1) (line_of segment2) == 0 ->
  0 <= precision ->
  exists s t : Q,
    solve (line_of segment1) (line_of segment2) = Some (s, t) /\
    s = (coef_d (line_of segment2) * coef_a (line_of segment1)
         - coef_c (line_of segment1) * coef_b (line_of segment2)
         + coef_c (line_of segment1) * coef_b (line_of segment1)
         - coef_d (line_of segment1) * coef_a (line_of segment1))
        / (coef_c (line_of segment1) * coef_a (line_of segment2)
           - coef_c (line_of segment2) * coef_a (line_of segment1)) /\
    t = (coef_a (line_of segment2) * s + coef_b (line_of segment2)
         - coef_b (line_of segment1))
        / coef_a (line_of segment1) /\
    coef_a (line_of segment1) * t + coef_b (line_of segment1)
      == coef_a (line_of segment2) * s + coef_b (line_of segment2) /\
    coef_c (line_of segment1) * t + coef_d (line_of segment1)
      == coef_c (line_of segment2) * s + coef_d (line_of segment2) /\
    x_ok (line_of segment1) (line_of segment2) precision s t = true /\
    y_ok (line_of segment1) (line_of segment2) precision s t = true /\
    intersect segment1 segment2 precision =
      if z_ok (line_of segment1) (line_of segment2) precision s t
      then Returns (candidate (line_of segment2) s)
      else Throws no_intersection.
Proof.
  intros Ha Hd Hp.
  pose proof (exact_solve _ _ Ha Hd) as Hsolve.
  pose proof (exact_x_equation _ (line_of segment2) Ha) as Hx.
  pose proof (exact_y_equation _ _ Ha Hd) as Hy.
  exists (exact_s (line_of segment1) (line_of segment2)).
  exists (exact_t (line_of segment1) (line_of segment2)).
  pose proof (exact_x_ok (line_of segment1) (line_of segment2) precision Ha Hp) as Hxok.
  pose proof (exact_y_ok (line_of segment1) (line_of segment2) precision Ha Hd Hp) as Hyok.
  split; [exact Hsolve|].
  split; [reflexivity|].
  split; [reflexivity|].
  split; [exact Hx|].
  split; [exact Hy|].
  split; [exact Hxok|].
  split; [exact Hyok|].
  rewrite intersect_parts, Hsolve, Hxok, Hyok. reflexivity.
Qed.

Lemma exact_xy_checks_pass_witness :
  exists s t : Q,
    solve (line_of diag1Q) (line_of diag2Q) = Some (s, t) /\
    x_ok (line_of diag1Q) (line_of diag2Q) (1 # 1000000) s t = true /\
    y_ok (line_of diag1Q) (line_of diag2Q) (1 # 1000000) s t = true.
Proof.
  destruct (exact_xy_checks_pass diag1Q diag2Q (1 # 1000000))
    as (s & t & Hsolve & _ & _ & _ & _ & Hx & Hy & _).
  - vm_compute. discriminate.
  - vm_compute. discriminate.
  - vm_compute. discriminate.
  - exists s, t. repeat split; assumption.
Defined.

(** In binary64 the X equation holds only up to rounding.  On [slant] and
    [post], which cross at (1,1,0), neither divisor is zero and the solved
    [t] is the double nearest to [1/49]; [49 * t] rounds to [1 - 2^-53], not
    to 1, so at precision 0 the X check fails and [intersect] throws. *)
Lemma binary64_x_check_fails_by_rounding :
  is_zero (coef_a (line_of slant)) = false /\
  is_zero (denominator (line_of slant) (line_of post)) = false /\
  solve (line_of slant) (line_of post)
    = Some (of_Z 1, SFdiv prec emax (of_Z 1) (of_Z 49)) /\
  x_ok (line_of slant) (line_of post) (of_Z 0)
       (of_Z 1) (SFdiv prec emax (of_Z 1) (of_Z 49)) = false /\
  intersect slant post (of_Z 0) = Throws no_intersection.
Proof. by_evaluation. Qed.

(** C8: the two diagonals are valid segments; in binary64, at the default
    precision, [intersect] solves [t = s = 0.5] and returns exactly (1,1,0);
    in exact arithmetic, at every precision [>= 0], it solves
    [t = s = 1/2] and returns (1,1,0). *)
Theorem intersect_diagonals (precision : Q) :
  0 <= precision ->
  (valid diag1 /\ valid diag2 /\
   solve (line_of diag1) (line_of diag2) = Some (decimal 5 1, decimal 5 1) /\
   intersect diag1 diag2 default_precision = Returns (ivec 1 1 0)) /\
  (valid diag1Q /\ valid diag2Q /\
   exists (s t : Q) (p : Vector3D Q),
     solve (line_of diag1Q) (line_of diag2Q) = Some (s, t) /\
     s == 1 # 2 /\ t == 1 # 2 /\
     intersect diag1Q diag2Q precision = Returns p /\
     same_point p (ivecQ 1 1 0)).
Proof.
  intros Hp. split.
  { by_evaluation. }
  split; [reflexivity|]. split; [reflexivity|].
  assert (Ha : ~ coef_a (line_of diag1Q) == 0) by (vm_compute; discriminate).
  assert (Hd : ~ denominator (line_of diag1Q) (line_of diag2Q) == 0)
    by (vm_compute; discriminate).
  exists (exact_s (line_of diag1Q) (line_of diag2Q)).
  exists (exact_t (line_of diag1Q) (line_of diag2Q)).
  exists (candidate (line_of diag2Q) (exact_s (line_of diag1Q) (line_of diag2Q))).
  split; [exact (exact_solve _ _ Ha Hd)|].
  split; [vm_compute; reflexivity|].
  split; [vm_compute; reflexivity|].
  split; [|vm_compute; repeat split; reflexivity].
  rewrite intersect_parts, (exact_solve _ _ Ha Hd).
  rewrite (exact_x_ok (line_of diag1Q) (line_of diag2Q) precision Ha Hp).
  rewrite (exact_y_ok (line_of diag1Q) (line_of diag2Q) precision Ha Hd Hp).
  assert (Hz : z_ok (line_of diag1Q) (line_of diag2Q) precision
                 (exact_s (line_of diag1Q) (line_of diag2Q))
                 (exact_t (line_of diag1Q) (line_of diag2Q)) = true).
  { unfold z_ok. apply exact_axis_ok_equal; [exact Hp|].
    vm_compute. reflexivity. }
  rewrite Hz. reflexivity.
Qed.

Lemma intersect_diagonals_witness :
  0 <= 1 # 1000000 /\
  intersect diag1 diag2 default_precision = Returns (ivec 1 1 0).
Proof.
  split; [vm_compute; discriminate|].
  apply (intersect_diagonals (1 # 1000000)). vm_compute; discriminate.
Defined.




(** C7: [intersect] never compares [t] or [s] with 0 or 1.  The two
    segments [short1] and [short2] are valid and have no common point, their
    supporting lines cross at (2,2,0) with [t = s = 2], and [intersect]
    returns (2,2,0) instead of throwing. *)
Theorem intersect_ignores_parameter_range :
  valid short1 /\ valid short2 /\
  solve (line_of short1) (line_of short2) = Some (of_Z 2, of_Z 2) /\
  intersect short1 short2 default_precision = Returns (ivec 2 2 0) /\
  same_point (point_at (line_of (segment_to_Q short1)) 2)
             (point_at (line_of (segment_to_Q short2)) 2) /\
  ~ segments_meet (segment_to_Q short1) (segment_to_Q short2).
Proof.
  split; [reflexivity|]. split; [reflexivity|].
  split; [vm_compute; reflexivity|].
  split; [vm_compute; reflexivity|].
  split; [vm_compute; repeat split; reflexivity|].
  intros (u & v & Hu0 & Hu1 & Hv0 & Hv1 & Hx & Hy & _).
  cbn [point_at vecQ getX getY] in Hx, Hy.
  assert (Ea1 : coef_a (line_of (segment_to_Q short1)) == 1) by (vm_compute; reflexivity).
  assert (Eb1 : coef_b (line_of (segment_to_Q short1)) == 0) by (vm_compute; reflexivity).
  assert (Ec1 : coef_c (line_of (segment_to_Q short1)) == 1) by (vm_compute; reflexivity).
  assert (Ed1 : coef_d (line_of (segment_to_Q short1)) == 0) by (vm_compute; reflexivity).
  assert (Ea2 : coef_a (line_of (segment_to_Q short2)) == -1) by (vm_compute; reflexivity).
  assert (Eb2 : coef_b (line_of (segment_to_Q short2)) == 4) by (vm_compute; reflexivity).
  assert (Ec2 : coef_c (line_of (segment_to_Q short2)) == 1) by (vm_compute; reflexivity).
  assert (Ed2 : coef_d (line_of (segment_to_Q short2)) == 0) by (vm_compute; reflexivity).
  rewrite Ea1, Eb1, Ea2, Eb2 in Hx.
  rewrite Ec1, Ed1, Ec2, Ed2 in Hy.
  lra.
Qed.

(** C9: [intersect] divides by [a1] whatever its value.  In exact
    arithmetic the function has a result exactly when neither divisor,
    [c1*a2 - c2*a1] nor [a1], is zero.  The valid segments [uprightQ] and
    [acrossQ] have [a1 = 0] and a nonzero denominator: they cross at
    (0,1,0), and [intersect] is undefined on them.  In binary64 the same
    division is [0/0]: [t] is NaN and [intersect] throws at every
    precision. *)
Theorem exact_intersect_defined_iff :
  (forall (segment1 segment2 : Segment3D Q) (precision : Q),
      intersect segment1 segment2 precision = Undefined <->
      (denominator (line_of segment1) (line_of segment2) == 0 \/
       coef_a (line_of segment1) == 0)) /\
  (valid uprightQ /\ valid acrossQ /\
   coef_a (line_of uprightQ) == 0 /\
   ~ denominator (line_of uprightQ) (line_of acrossQ) == 0 /\
   segments_meet uprightQ acrossQ /\
   forall precision : Q, intersect uprightQ acrossQ precision = Undefined) /\
  (valid upright /\ valid across /\
   solve (line_of upright) (line_of across) = Some (decimal 5 1, NaN) /\
   forall precision : double,
     intersect upright across precision = Throws no_intersection).
Proof.
  assert (Hiff : forall (segment1 segment2 : Segment3D Q) (precision : Q),
             intersect segment1 segment2 precision = Undefined <->
             (denominator (line_of segment1) (line_of segment2) == 0 \/
              coef_a (line_of segment1) == 0)).
  { intros segment1 segment2 precision.
    rewrite <- exact_solve_none, intersect_parts.
    destruct (solve _ _) as [[s t]|].
    - split; [|discriminate].
      destruct (_ && _); discriminate.
    - split; reflexivity. }
  split; [exact Hiff|]. split.
  - split; [reflexivity|]. split; [reflexivity|].
    split; [vm_compute; reflexivity|].
    split; [vm_compute; discriminate|].
    split.
    + exists (1 # 2), (1 # 2).
      repeat split; try lra; vm_compute; reflexivity.
    + intros precision. apply Hiff. right. vm_compute. reflexivity.
  - split; [reflexivity|]. split; [reflexivity|].
    split; [vm_compute; reflexivity|].
    intros precision. reflexivity.
Qed.

(** ** Binary64: a zero denominator *)

Lemma SFdiv_zero_nonfinite (x d : double) :
  is_zero d = true ->
  is_nan (SFdiv prec emax x d) || is_infinite (SFdiv prec emax x d) = true.
Proof.
  destruct d; try discriminate. intros _. destruct x; reflexivity.
Qed.

Lemma SFmul_nonfinite (a s : double) :
  is_nan s || is_infinite s = true ->
  is_nan (SFmul prec emax a s) || is_infinite (SFmul prec emax a s) = true.
Proof.
  destruct s; try discriminate; intros _; destruct a; reflexivity.
Qed.

Lemma SFadd_nonfinite (x b : double) :
  is_nan x || is_infinite x = true ->
  is_nan (SFadd prec emax x b) || is_infinite (SFadd prec emax x b) = true.
Proof.
  destruct x as [| sx | |]; try discriminate; intros _.
  - destruct b as [| sb | |]; try reflexivity. destruct sx, sb; reflexivity.
  - reflexivity.
Qed.

(** A passing axis check has a right-hand side that is not NaN. *)
Lemma axis_ok_not_nan (precision lhs rhs : double) :
  axis_ok precision lhs rhs = true -> is_nan rhs = false.
Proof.
  destruct rhs; try reflexivity.
  unfold axis_ok; simpl. rewrite (SFleb_nan_r _). discriminate.
Qed.

Lemma axis_ok_infinite (precision lhs a s b : double) :
  is_nan s || is_infinite s = true ->
  axis_ok precision lhs (SFadd prec emax (SFmul prec emax a s) b) = true ->
  is_infinite (SFadd prec emax (SFmul prec emax a s) b) = true.
Proof.
  intros Hs Hok.
  pose proof (SFadd_nonfinite _ b (SFmul_nonfinite a _ Hs)) as Hnf.
  apply axis_ok_not_nan in Hok. rewrite Hok in Hnf. exact Hnf.
Qed.

(** With a zero denominator no returned point is finite: [s] is infinite
    or NaN, so is every coordinate of the candidate, and a check that
    passed has no NaN on its right-hand side. *)
Lemma intersect_zero_denominator
    (segment1 segment2 : Segment3D double) (precision : double) :
  is_zero (denominator (line_of segment1) (line_of segment2)) = true ->
  intersect segment1 segment2 precision = Throws no_intersection \/
  exists p : Vector3D double,
    intersect segment1 segment2 precision = Returns p /\
    is_infinite (getX p) = true /\
    is_infinite (getY p) = true /\
    is_infinite (getZ p) = true.
Proof.
  intros Hd.
  rewrite intersect_parts, solve_binary64. cbv beta iota zeta.
  set (s := SFdiv prec emax _ _).
  set (t := SFdiv prec emax _ _).
  assert (Hs : is_nan s || is_infinite s = true)
    by (apply SFdiv_zero_nonfinite; exact Hd).
  destruct (@x_ok double binary64 _ _ _ _ _) eqn:Hx; [|left; reflexivity].
  destruct (@y_ok double binary64 _ _ _ _ _) eqn:Hy; [|left; reflexivity].
  destruct (@z_ok double binary64 _ _ _ _ _) eqn:Hz; [|left; reflexivity].
  right. eexists. split; [reflexivity|].
  split; [exact (axis_ok_infinite _ _ _ _ _ Hs Hx)|].
  split; [exact (axis_ok_infinite _ _ _ _ _ Hs Hy)|].
  exact (axis_ok_infinite _ _ _ _ _ Hs Hz).
Qed.

(** The [0/0] case: on two overlapping segments of one line the numerator
    is zero as well, [s] is NaN, and the call throws. *)
Lemma intersect_collinear_throws :
  valid col1 /\ valid col2 /\
  is_zero (denominator (line_of col1) (line_of col2)) = true /\
  is_zero (numerator (line_of col1) (line_of col2)) = true /\
  intersect col1 col2 default_precision = Throws no_intersection.
Proof. by_evaluation. Qed.

(** C6: a defect of [intersect].  The segments [par1] and [par2] are valid
    and parallel: the denominator is zero, and their supporting lines have
    no common point.  C6 asks for an exception there, and so does the
    comment of [intersect] ("@throws std::invalid_argument if the segments
    do not have an intersection point").  The code returns the point whose
    three coordinates are [+infinity]: [s] and [t] are [+infinity], and
    every comparison, between [+infinity] and [+infinity], holds. *)
Theorem intersect_parallel_returns_infinite_point :
  valid par1 /\ valid par2 /\
  is_zero (denominator (line_of par1) (line_of par2)) = true /\
  ~ (exists u v : Q,
        same_point (point_at (line_of (segment_to_Q par1)) u)
                   (point_at (line_of (segment_to_Q par2)) v)) /\
  solve (line_of par1) (line_of par2)
    = Some (S754_infinity false, S754_infinity false) /\
  intersect par1 par2 default_precision =
    Returns (vec (S754_infinity false) (S754_infinity false) (S754_infinity false)).
Proof.
  split; [reflexivity|]. split; [reflexivity|].
  split; [vm_compute; reflexivity|].
  split; [|split; vm_compute; reflexivity].
  intros (u & v & Hx & Hy & _).
  cbn [point_at vecQ getX getY] in Hx, Hy.
  assert (Ea1 : coef_a (line_of (segment_to_Q par1)) == 1) by (vm_compute; reflexivity).
  assert (Eb1 : coef_b (line_of (segment_to_Q par1)) == 0) by (vm_compute; reflexivity).
  assert (Ec1 : coef_c (line_of (segment_to_Q par1)) == 1) by (vm_compute; reflexivity).
  assert (Ed1 : coef_d (line_of (segment_to_Q par1)) == 0) by (vm_compute; reflexivity).
  assert (Ea2 : coef_a (line_of (segment_to_Q par2)) == 1) by (vm_compute; reflexivity).
  assert (Eb2 : coef_b (line_of (segment_to_Q par2)) == 0) by (vm_compute; reflexivity).
  assert (Ec2 : coef_c (line_of (segment_to_Q par2)) == 1) by (vm_compute; reflexivity).
  assert (Ed2 : coef_d (line_of (segment_to_Q par2)) == 1) by (vm_compute; reflexivity).
  rewrite Ea1, Eb1, Ea2, Eb2 in Hx.
  rewrite Ec1, Ed1, Ec2, Ed2 in Hy.
  lra.
Qed.

(** ** Binary64: the constructor, and NaN in [intersect] *)

(** X1: the constructor of [Segment3D] has two outcomes.  It throws
    [std::invalid_argument("Start and end points are the same")] when on
    every axis the two coordinates are the same non-NaN double or are both
    zeros; otherwise it returns a segment whose accessors give back the two
    points unchanged, in the order given. *)
Theorem mkSegment3D_outcome (p q : Vector3D double) :
  (mkSegment3D p q = Throws degenerate_segment /\
   same_value (getX p) (getX q) /\
   same_value (getY p) (getY q) /\
   same_value (getZ p) (getZ q))
  \/
  (exists s : Segment3D double,
      mkSegment3D p q = Returns s /\
      getStart s = p /\ getEnd s = q /\
      ~ (same_value (getX p) (getX q) /\
         same_value (getY p) (getY q) /\
         same_value (getZ p) (getZ q))).
Proof.
  unfold mkSegment3D.
  destruct (Vector3D_eqb p q) eqn:Heq.
  - left. split; [reflexivity|].
    unfold Vector3D_eqb in Heq; simpl in Heq.
    rewrite !andb_true_iff, !SFeqb_same_value in Heq. tauto.
  - right. eexists. split; [reflexivity|].
    split; [reflexivity|]. split; [reflexivity|].
    intros Hsame.
    unfold Vector3D_eqb in Heq; simpl in Heq.
    rewrite <- !SFeqb_same_value, <- !andb_true_iff in Hsame.
    rewrite andb_assoc in Hsame. congruence.
Qed.

Lemma SFadd_nan_r (x : double) : SFadd prec emax x NaN = NaN.
Proof. destruct x; reflexivity. Qed.

Lemma SFsub_nan_r (x : double) : SFsub prec emax x NaN = NaN.
Proof. destruct x; reflexivity. Qed.

Lemma SFdiv_nan_r (x : double) : SFdiv prec emax x NaN = NaN.
Proof. destruct x; reflexivity. Qed.

(** A check with NaN on either side, or a NaN precision, fails. *)
Lemma axis_ok_nan (precision lhs rhs : double) :
  is_nan precision || is_nan lhs || is_nan rhs = true ->
  axis_ok precision lhs rhs = false.
Proof.
  unfold axis_ok; simpl.
  destruct precision; try (intros Hn; rewrite SFsub_nan_r; reflexivity);
    destruct lhs; try reflexivity;
    destruct rhs; try discriminate;
    intros _; rewrite SFleb_nan_r; reflexivity.
Qed.

(** The value of a line on one axis, [(end - start) * u + start], is NaN
    as soon as one of the two coordinates is. *)
Lemma axis_value_nan (xs xe u : double) :
  is_nan xs || is_nan xe = true ->
  is_nan (SFadd prec emax (SFmul prec emax (SFsub prec emax xe xs) u) xs) = true.
Proof.
  destruct xs; try (intros _; rewrite SFadd_nan_r; reflexivity);
    destruct xe; try discriminate; intros _; reflexivity.
Qed.

(** One failing check is enough for [intersect] to throw. *)
Lemma intersect_throws_on_failed_check
    (segment1 segment2 : Segment3D double) (precision : double) :
  (forall s t : double,
      x_ok (line_of segment1) (line_of segment2) precision s t = false \/
      y_ok (line_of segment1) (line_of segment2) precision s t = false \/
      z_ok (line_of segment1) (line_of segment2) precision s t = false) ->
  intersect segment1 segment2 precision = Throws no_intersection.
Proof.
  intros Hfail.
  rewrite intersect_parts, solve_binary64. cbv beta iota zeta.
  match goal with
  | |- context [x_ok _ _ _ ?s ?t] => destruct (Hfail s t) as [Hc|[Hc|Hc]]
  end; rewrite Hc; rewrite ?andb_false_r; reflexivity.
Qed.

(** A NaN among the four coordinates of one axis fails the check of that
    axis, whatever the solved parameters are. *)
Ltac axis_check_on_nan :=
  intros Hn; apply axis_ok_nan;
  repeat rewrite orb_true_iff in Hn;
  destruct Hn as [[[Hn|Hn]|Hn]|Hn];
  [ rewrite (axis_value_nan _ _ _ (eq_trans (f_equal (fun b => b || _) Hn) eq_refl))
  | rewrite (axis_value_nan _ _ _ (eq_trans (f_equal (fun b => _ || b) Hn) (orb_true_r _)))
  | match goal with
    | |- _ || _ || is_nan ?rhs = true =>
        replace (is_nan rhs) with true
          by (symmetry; apply axis_value_nan; rewrite Hn; reflexivity)
    end
  | match goal with
    | |- _ || _ || is_nan ?rhs = true =>
        replace (is_nan rhs) with true
          by (symmetry; apply axis_value_nan; rewrite Hn; apply orb_true_r)
    end ];
  rewrite ?orb_true_r; reflexivity.

Lemma x_ok_false_on_nan
    (segment1 segment2 : Segment3D double) (precision s t : double) :
  is_nan (getX (getStart segment1)) || is_nan (getX (getEnd segment1))
  || is_nan (getX (getStart segment2)) || is_nan (getX (getEnd segment2)) = true ->
  x_ok (line_of segment1) (line_of segment2) precision s t = false.
Proof. unfold x_ok, line_of; simpl. axis_check_on_nan. Qed.

Lemma y_ok_false_on_nan
    (segment1 segment2 : Segment3D double) (precision s t : double) :
  is_nan (getY (getStart segment1)) || is_nan (getY (getEnd segment1))
  || is_nan (getY (getStart segment2)) || is_nan (getY (getEnd segment2)) = true ->
  y_ok (line_of segment1) (line_of segment2) precision s t = false.
Proof. unfold y_ok, line_of; simpl. axis_check_on_nan. Qed.

Lemma z_ok_false_on_nan
    (segment1 segment2 : Segment3D double) (precision s t : double) :
  is_nan (getZ (getStart segment1)) || is_nan (getZ (getEnd segment1))
  || is_nan (getZ (getStart segment2)) || is_nan (getZ (getEnd segment2)) = true ->
  z_ok (line_of segment1) (line_of segment2) precision s t = false.
Proof. unfold z_ok, line_of; simpl. axis_check_on_nan. Qed.

(** X5: NaN never passes through [intersect].  When any coordinate of any
    of the four end points is NaN, or the precision is NaN, the call throws
    [std::invalid_argument("Segments do not intersect")]. *)
Theorem intersect_throws_on_nan
    (segment1 segment2 : Segment3D double) (precision : double) :
  segment_has_nan segment1 || segment_has_nan segment2 || is_nan precision = true ->
  intersect segment1 segment2 precision = Throws no_intersection.
Proof.
  intros Hn. apply intersect_throws_on_failed_check. intros s t.
  unfold segment_has_nan, has_nan in Hn.
  repeat rewrite orb_true_iff in Hn.
  destruct Hn as [[[[[Hn|Hn]|Hn]|[[Hn|Hn]|Hn]]|[[[Hn|Hn]|Hn]|[[Hn|Hn]|Hn]]]|Hn];
    try (left; apply x_ok_false_on_nan; rewrite Hn, ?orb_true_r; reflexivity);
    try (right; left; apply y_ok_false_on_nan; rewrite Hn, ?orb_true_r; reflexivity);
    try (right; right; apply z_ok_false_on_nan; rewrite Hn, ?orb_true_r; reflexivity).
  left. unfold x_ok. apply axis_ok_nan. rewrite Hn. reflexivity.
Qed.

Lemma intersect_throws_on_nan_witness :
  segment_has_nan (seg nan_point (ivec 1 1 1)) || segment_has_nan diag2
  || is_nan default_precision = true /\
  intersect (seg nan_point (ivec 1 1 1)) diag2 default_precision
    = Throws no_intersection.
Proof.
  split; [reflexivity|].
  apply (intersect_throws_on_nan (seg nan_point (ivec 1 1 1)) diag2 default_precision).
  reflexivity.
Defined.

(** X4: a point returned by [intersect] has no NaN coordinate. *)
Theorem intersect_never_returns_nan
    (segment1 segment2 : Segment3D double) (precision : double)
    (p : Vector3D double) :
  intersect segment1 segment2 precision = Returns p ->
  has_nan p = false.
Proof.
  rewrite intersect_parts, solve_binary64. cbv beta iota zeta.
  destruct (@x_ok double binary64 _ _ _ _ _) eqn:Hx; [|discriminate].
  destruct (@y_ok double binary64 _ _ _ _ _) eqn:Hy; [|discriminate].
  destruct (@z_ok double binary64 _ _ _ _ _) eqn:Hz; [|discriminate].
  intros [= <-].
  apply axis_ok_not_nan in Hx, Hy, Hz.
  unfold has_nan. rewrite !orb_false_iff.
  split; [split|]; [exact Hx | exact Hy | exact Hz].
Qed.

Lemma intersect_never_returns_nan_witness :
  intersect diag1 diag2 default_precision = Returns (ivec 1 1 0) /\
  has_nan (ivec 1 1 0) = false.
Proof.
  split; [vm_compute; reflexivity|].
  apply (intersect_never_returns_nan diag1 diag2 default_precision).
  vm_compute. reflexivity.
Defined.

(** ** Binary64: a first segment with one X coordinate *)

(** A double minus itself is zero, or NaN when it is infinite or NaN. *)
Lemma SFsub_diag (x : double) :
  is_zero (SFsub prec emax x x) || is_nan (SFsub prec emax x x) = true.
Proof.
  destruct x as [s|s| |s m e]; try (destruct s; reflexivity); try reflexivity.
  unfold SFsub. cbv zeta. rewrite Z.sub_diag. reflexivity.
Qed.

Lemma SFsub_same_value (x y : double) :
  same_value x y ->
  is_zero (SFsub prec emax x y) || is_nan (SFsub prec emax x y) = true.
Proof.
  destruct x as [s1|s1| |s1 m1 e1], y as [s2|s2| |s2 m2 e2]; simpl;
    try contradiction; try discriminate.
  - intros _. destruct s1, s2; reflexivity.
  - intros [= <-]. exact (SFsub_diag (S754_infinity s1)).
  - intros [= <- <- <-]. exact (SFsub_diag (S754_finite s1 m1 e1)).
Qed.

(** With [a] zero or NaN, [a * (n / a) + b] is NaN. *)
Lemma zero_divisor_value_nan (a n b : double) :
  is_zero a || is_nan a = true ->
  is_nan (SFadd prec emax (SFmul prec emax a (SFdiv prec emax n a)) b) = true.
Proof.
  destruct a; try discriminate; intros _.
  - destruct n; reflexivity.
  - rewrite SFdiv_nan_r. reflexivity.
Qed.

(** X3: when the two end points of the first segment have equal X
    coordinates ([end.x == start.x]), [intersect] throws for every second
    segment and every precision: [a1] is zero (or NaN, for an infinite
    coordinate), [t] is a quotient by it, and [a1 * t + b1] is NaN. *)
Theorem intersect_throws_on_equal_x
    (segment1 segment2 : Segment3D double) (precision : double) :
  SFeqb (getX (getEnd segment1)) (getX (getStart segment1)) = true ->
  intersect segment1 segment2 precision = Throws no_intersection.
Proof.
  intros Heq. apply SFeqb_same_value, SFsub_same_value in Heq.
  rewrite intersect_parts, solve_binary64. cbv beta iota zeta.
  match goal with
  | |- context [@x_ok double binary64 ?l1 ?l2 ?p ?s ?t] =>
      assert (Hx : x_ok l1 l2 p s t = false)
  end.
  { unfold x_ok. apply axis_ok_nan.
    apply orb_true_iff. left. apply orb_true_iff. right.
    exact (zero_divisor_value_nan _ _ _ Heq). }
  rewrite Hx. reflexivity.
Qed.

Lemma intersect_throws_on_equal_x_witness :
  SFeqb (getX (getEnd upright)) (getX (getStart upright)) = true /\
  intersect upright across default_precision = Throws no_intersection.
Proof.
  split; [reflexivity|].
  apply (intersect_throws_on_equal_x upright across default_precision).
  reflexivity.
Defined.

(** The restriction is on the first segment only: with the same two
    segments in the other order the call returns their crossing point. *)
Lemma intersect_argument_order_matters :
  intersect upright across default_precision = Throws no_intersection /\
  intersect across upright default_precision = Returns (ivec 0 1 0).
Proof. by_evaluation. Qed.
